(** * SingleRunExternalDAGsSensor

    A shallow embedding of
    [catalog/dags/common/sensors/single_run_external_dags_sensor.py]:
    the sensor object, the three tables of the metadata database it
    queries, the part of the host it consults (the file system and the
    DAG loader), and the methods [__init__], [poke],
    [_check_for_existence] and [get_count].

    Methods are computations in a small monad that threads the world
    (the sensor object, the database, the host), may raise a Python
    exception, and records the interactions with the host in a trace.
    A raised exception keeps the world as it was at the raise, as in
    Python: nothing is rolled back. *)

From Stdlib Require Import String List Bool Arith Lia.
Import ListNotations.
Open Scope string_scope.
Open Scope list_scope.

(** ** Data *)

(** [airflow.utils.state.State]: the values a run or a task instance can
    be in; [NoState] is the NULL of a task instance not yet scheduled. *)
Inductive State : Type :=
| NoState | REMOVED | SCHEDULED | QUEUED | RUNNING | SUCCESS | RESTARTING
| FAILED | UP_FOR_RETRY | UP_FOR_RESCHEDULE | UPSTREAM_FAILED | SKIPPED
| DEFERRED.

Definition State_eq_dec (a b : State) : {a = b} + {a <> b}.
Proof. decide equality. Defined.

(** SQL [column == value] on a state column. *)
Definition state_eqb (a b : State) : bool :=
  if State_eq_dec a b then true else false.

(** A row of [DagModel]: the columns the sensor reads. *)
Record DagModel : Type := mkDagModel {
  dm_dag_id : string;
  fileloc : string
}.

(** A row of [DagRun]. *)
Record DagRun : Type := mkDagRun {
  dr_dag_id : string;
  dr_run_id : string;
  dr_state : State
}.

(** A row of [TaskInstance]. *)
Record TaskInstance : Type := mkTaskInstance {
  ti_task_id : string;
  ti_run_id : string;
  ti_state : State
}.

(** The metadata database behind [session]. *)
Record Session : Type := mkSession {
  dag_models : list DagModel;
  dag_runs : list DagRun;
  task_instances : list TaskInstance
}.

(** A DAG as [DagBag.get_dag] returns it: its task ids, for [has_task]. *)
Record DAG : Type := mkDAG {
  task_ids : list string
}.

(** What the sensor asks of the host besides the database:
    [os.path.exists] and [DagBag(fileloc).get_dag(dag_id)], which is
    [None] when the file does not define the DAG. *)
Record Host : Type := mkHost {
  os_path_exists : string -> bool;
  DagBag_get_dag : string -> string -> option DAG
}.

(** The sensor object: [task_id] comes from the operator base class, the
    next three are the constructor's arguments, the last one is the flag
    the object keeps between pokes. *)
Record Sensor : Type := mkSensor {
  task_id : string;
  external_dag_ids : list string;
  check_existence : bool;
  allow_concurrent_runs : bool;
  _has_checked_params : bool
}.

Record World : Type := mkWorld {
  self : Sensor;
  session : Session;
  host : Host
}.

(** Python exceptions the sensor can raise. *)
Inductive Exn : Type :=
| AirflowException (msg : string)
| AttributeError (msg : string).

(** Interactions observed during a call, in the order they happen. *)
Inductive Event : Type :=
| LogPoking (ids : list string)
| LogConcurrentRunsAllowed
| LogRunning (count : nat)
| CallCheckForExistence
| QueryDagModelFirst (dag_id : string)
| OsPathExists (path : string)
| DagBagGetDag (path dag_id : string)
| HasTask (dag_id tid : string)
| QueryCount.

(** ** The monad *)

Inductive Result (A : Type) : Type :=
| Returns (a : A)
| Raises (e : Exn).
Arguments Returns {A} a.
Arguments Raises {A} e.

Record Outcome (A : Type) : Type := mkOutcome {
  result : Result A;
  world : World;
  trace : list Event
}.
Arguments mkOutcome {A} _ _ _.
Arguments result {A} _.
Arguments world {A} _.
Arguments trace {A} _.

Definition M (A : Type) : Type := World -> Outcome A.

Definition ret {A} (a : A) : M A := fun w => mkOutcome (Returns a) w [].

Definition raise {A} (e : Exn) : M A := fun w => mkOutcome (Raises e) w [].

Definition bind {A B} (m : M A) (k : A -> M B) : M B :=
  fun w =>
    let o := m w in
    match result o with
    | Returns a =>
        let o' := k a (world o) in
        mkOutcome (result o') (world o') (trace o ++ trace o')
    | Raises e => mkOutcome (Raises e) (world o) (trace o)
    end.

Notation "x <- m ;; k" := (bind m (fun x => k))
  (at level 61, m at next level, right associativity).
Notation "m ;;; k" := (bind m (fun _ => k))
  (at level 61, right associativity).

Definition gets {A} (f : World -> A) : M A :=
  fun w => mkOutcome (Returns (f w)) w [].

Definition modify (f : World -> World) : M unit :=
  fun w => mkOutcome (Returns tt) (f w) [].

Definition emit (e : Event) : M unit :=
  fun w => mkOutcome (Returns tt) w [e].

(** [for x in xs: body(x)]: the first exception ends the loop. *)
Fixpoint for_each {A} (xs : list A) (body : A -> M unit) : M unit :=
  match xs with
  | [] => ret tt
  | x :: xs' => body x ;;; for_each xs' body
  end.

(** ** Queries *)

(** [column.in_(values)]; false on every row when [values] is empty. *)
Definition in_ (v : string) (values : list string) : bool :=
  existsb (String.eqb v) values.

(** [query.join(TaskInstance, on)]: one row per pair satisfying [on]. *)
Definition join (runs : list DagRun) (tis : list TaskInstance)
    (on : TaskInstance -> DagRun -> bool) : list (DagRun * TaskInstance) :=
  flat_map (fun r => map (pair r) (filter (fun ti => on ti r) tis)) runs.

(** [session.query(DagModel).filter(DagModel.dag_id == dag_id).first()] *)
Definition query_dag_model_first (dag_id : string) : M (option DagModel) :=
  emit (QueryDagModelFirst dag_id) ;;;
  db <- gets session ;;
  ret (find (fun d => String.eqb (dm_dag_id d) dag_id) (dag_models db)).

Definition has_task (d : DAG) (tid : string) : bool :=
  existsb (String.eqb tid) (task_ids d).

(** ** The sensor *)

Definition __init__ (tid : string) (ids : list string)
    (check_existence allow_concurrent_runs : bool) : Sensor :=
  mkSensor tid ids check_existence allow_concurrent_runs false.

Definition set_has_checked_params (b : bool) : M unit :=
  modify (fun w =>
    let s := self w in
    mkWorld
      (mkSensor (task_id s) (external_dag_ids s) (check_existence s)
                (allow_concurrent_runs s) b)
      (session w) (host w)).

(** The body of the loop of [_check_for_existence]. *)
Definition check_dag (dag_id : string) : M unit :=
  dag_to_wait <- query_dag_model_first dag_id ;;
  match dag_to_wait with
  | None =>
      raise (AirflowException
               ("The external DAG " ++ dag_id ++ " does not exist."))
  | Some dm =>
      emit (OsPathExists (fileloc dm)) ;;;
      exists_ <- gets (fun w => os_path_exists (host w) (fileloc dm)) ;;
      if negb exists_ then
        raise (AirflowException
                 ("The external DAG " ++ dag_id ++ " was deleted."))
      else
        emit (DagBagGetDag (fileloc dm) dag_id) ;;;
        refreshed_dag_info <-
          gets (fun w => DagBag_get_dag (host w) (fileloc dm) dag_id) ;;
        tid <- gets (fun w => task_id (self w)) ;;
        match refreshed_dag_info with
        | None =>
            raise (AttributeError
                     "'NoneType' object has no attribute 'has_task'")
        | Some d =>
            emit (HasTask dag_id tid) ;;;
            if negb (has_task d tid) then
              raise (AirflowException
                       ("The external DAG " ++ dag_id
                        ++ " does not have a task with id " ++ tid ++ "."))
            else ret tt
        end
  end.

Definition _check_for_existence : M unit :=
  emit CallCheckForExistence ;;;
  ids <- gets (fun w => external_dag_ids (self w)) ;;
  for_each ids check_dag.

(** The query of [get_count], on the tables: the runs of the external
    DAGs that are running, joined to the task instances of the same run
    id, kept where the task instance is this sensor's task and has
    succeeded. *)
Definition count_query (s : Sensor) (db : Session)
    : list (DagRun * TaskInstance) :=
  let running :=
    filter (fun r => in_ (dr_dag_id r) (external_dag_ids s)
                     && state_eqb (dr_state r) RUNNING)
           (dag_runs db) in
  let joined :=
    join running (task_instances db)
         (fun ti r => String.eqb (ti_run_id ti) (dr_run_id r)) in
  filter (fun p => String.eqb (ti_task_id (snd p)) (task_id s)
                   && state_eqb (ti_state (snd p)) SUCCESS)
         joined.

Definition get_count : M nat :=
  emit QueryCount ;;;
  s <- gets self ;;
  db <- gets session ;;
  ret (length (count_query s db)).

(** The steady-state part of [poke], after the first-poke block. *)
Definition count_and_report : M bool :=
  count_running <- get_count ;;
  emit (LogRunning count_running) ;;;
  ret (Nat.eqb count_running 0).

Definition poke : M bool :=
  ids <- gets (fun w => external_dag_ids (self w)) ;;
  emit (LogPoking ids) ;;;
  checked <- gets (fun w => _has_checked_params (self w)) ;;
  if negb checked then
    allow <- gets (fun w => allow_concurrent_runs (self w)) ;;
    if allow then
      emit LogConcurrentRunsAllowed ;;;
      ret true
    else
      check <- gets (fun w => check_existence (self w)) ;;
      (if check then _check_for_existence else ret tt) ;;;
      set_has_checked_params true ;;;
      count_and_report
  else
    count_and_report.

(** The host poking one sensor object several times; the database and
    the host may differ from one poke to the next.  Returns each poke's
    result and trace, and the object after the last poke. *)
Fixpoint pokes (s : Sensor) (envs : list (Session * Host))
    : list (Result bool * list Event) * Sensor :=
  match envs with
  | [] => ([], s)
  | (db, h) :: envs' =>
      let o := poke (mkWorld s db h) in
      let rest := pokes (self (world o)) envs' in
      ((result o, trace o) :: fst rest, snd rest)
  end.

(** ** Notions the statements use *)

(** A run is active for the guard when it is a run of one of the
    external DAGs, it is running, and some task instance of the same run
    id is this sensor's task and has succeeded. *)
Definition active_for_guard (s : Sensor) (db : Session) (r : DagRun) : bool :=
  in_ (dr_dag_id r) (external_dag_ids s)
  && state_eqb (dr_state r) RUNNING
  && existsb (fun ti => String.eqb (ti_run_id ti) (dr_run_id r)
                        && String.eqb (ti_task_id ti) (task_id s)
                        && state_eqb (ti_state ti) SUCCESS)
             (task_instances db).

(** The number of runs that are active for the guard. *)
Definition count_active (s : Sensor) (db : Session) : nat :=
  length (filter (active_for_guard s db) (dag_runs db)).

(** The first-poke block of [poke] is behind the sensor, or gets
    through in this poke: the flag is already set, or nothing is to be
    checked, or [_check_for_existence] returns. *)
Definition first_poke_block_completes (w : World) : Prop :=
  _has_checked_params (self w) = true
  \/ check_existence (self w) = false
  \/ result (_check_for_existence w) = Returns tt.

(** The events of [_check_for_existence]: the call and its three checks. *)
Definition is_validation_event (e : Event) : bool :=
  match e with
  | CallCheckForExistence | QueryDagModelFirst _ | OsPathExists _
  | DagBagGetDag _ _ | HasTask _ _ => true
  | _ => false
  end.

Definition is_check_call (e : Event) : bool :=
  match e with
  | CallCheckForExistence => true
  | _ => false
  end.

(** How many times a trace enters [_check_for_existence]. *)
Definition check_calls (t : list Event) : nat :=
  length (filter is_check_call t).

(** What the loop of [_check_for_existence] asks of one id: a
    definition record, whose file exists, and whose reloaded DAG is
    there and has the sensor's task. *)
Definition dag_passes (s : Sensor) (db : Session) (h : Host)
    (dag_id : string) : bool :=
  match find (fun d => String.eqb (dm_dag_id d) dag_id) (dag_models db) with
  | None => false
  | Some dm =>
      os_path_exists h (fileloc dm)
      && match DagBag_get_dag h (fileloc dm) dag_id with
         | None => false
         | Some d => has_task d (task_id s)
         end
  end.

(** The four failures [check_dag] can raise for an id. *)
Definition failure_of (tid dag_id : string) (e : Exn) : Prop :=
  e = AirflowException ("The external DAG " ++ dag_id ++ " does not exist.")
  \/ e = AirflowException ("The external DAG " ++ dag_id ++ " was deleted.")
  \/ e = AttributeError "'NoneType' object has no attribute 'has_task'"
  \/ e = AirflowException
           ("The external DAG " ++ dag_id
            ++ " does not have a task with id " ++ tid ++ ".").

(** The sensor object with its flag set. *)
Definition checked (s : Sensor) : Sensor :=
  mkSensor (task_id s) (external_dag_ids s) (check_existence s)
           (allow_concurrent_runs s) true.

(** Two sensor objects that differ at most in the flag. *)
Definition same_params (s s' : Sensor) : Prop :=
  task_id s' = task_id s
  /\ external_dag_ids s' = external_dag_ids s
  /\ check_existence s' = check_existence s
  /\ allow_concurrent_runs s' = allow_concurrent_runs s.

(** ** Scenarios *)

Definition wait_task : string := "wait_for_related_dags".

Definition no_host : Host :=
  mkHost (fun _ => false) (fun _ _ => None).

(** DAG [A] is running and its wait task has succeeded. *)
Definition db_A_active : Session :=
  mkSession []
            [mkDagRun "A" "run_1" RUNNING]
            [mkTaskInstance wait_task "run_1" SUCCESS].

(** DAG [A] is running and its wait task is still running. *)
Definition db_A_waiting : Session :=
  mkSession []
            [mkDagRun "A" "run_1" RUNNING]
            [mkTaskInstance wait_task "run_1" RUNNING].

Definition db_empty : Session := mkSession [] [] [].

(** DAG [B] is registered at a file that exists and defines it without
    the wait task; DAG [A] is not registered. *)
Definition db_B_registered : Session :=
  mkSession [mkDagModel "B" "/dags/b.py"] [] [].

Definition host_B_without_wait_task : Host :=
  mkHost (fun p => String.eqb p "/dags/b.py")
         (fun p dag_id =>
            if String.eqb p "/dags/b.py" && String.eqb dag_id "B"
            then Some (mkDAG ["load_data"]) else None).

Definition host_B_with_wait_task : Host :=
  mkHost (fun p => String.eqb p "/dags/b.py")
         (fun p dag_id =>
            if String.eqb p "/dags/b.py" && String.eqb dag_id "B"
            then Some (mkDAG ["load_data"; wait_task]) else None).

(** DAG [A] is registered at a file that is gone; DAG [B] is not
    registered. *)
Definition db_A_registered : Session :=
  mkSession [mkDagModel "A" "/dags/a.py"] [] [].


(** ** How the methods compute *)

Lemma get_count_eq (w : World) :
  get_count w
  = mkOutcome (Returns (length (count_query (self w) (session w)))) w
              [QueryCount].
Proof. reflexivity. Qed.

Lemma count_and_report_eq (w : World) :
  let n := length (count_query (self w) (session w)) in
  count_and_report w
  = mkOutcome (Returns (Nat.eqb n 0)) w [QueryCount; LogRunning n].
Proof. reflexivity. Qed.

(** [check_dag], check by check. *)
Lemma check_dag_eq (dag_id : string) (w : World) :
  check_dag dag_id w =
  match find (fun d => String.eqb (dm_dag_id d) dag_id)
             (dag_models (session w)) with
  | None =>
      mkOutcome
        (Raises (AirflowException
                   ("The external DAG " ++ dag_id ++ " does not exist.")))
        w [QueryDagModelFirst dag_id]
  | Some dm =>
      if os_path_exists (host w) (fileloc dm) then
        match DagBag_get_dag (host w) (fileloc dm) dag_id with
        | None =>
            mkOutcome
              (Raises (AttributeError
                         "'NoneType' object has no attribute 'has_task'"))
              w
              [QueryDagModelFirst dag_id; OsPathExists (fileloc dm);
               DagBagGetDag (fileloc dm) dag_id]
        | Some d =>
            mkOutcome
              (if has_task d (task_id (self w)) then Returns tt
               else Raises (AirflowException
                              ("The external DAG " ++ dag_id
                               ++ " does not have a task with id "
                               ++ task_id (self w) ++ ".")))
              w
              [QueryDagModelFirst dag_id; OsPathExists (fileloc dm);
               DagBagGetDag (fileloc dm) dag_id;
               HasTask dag_id (task_id (self w))]
        end
      else
        mkOutcome
          (Raises (AirflowException
                     ("The external DAG " ++ dag_id ++ " was deleted.")))
          w [QueryDagModelFirst dag_id; OsPathExists (fileloc dm)]
  end.
Proof.
  unfold check_dag, query_dag_model_first, bind, gets, emit, raise, ret.
  cbn.
  destruct (find _ (dag_models (session w))) as [dm|]; cbn; [|reflexivity].
  destruct (os_path_exists (host w) (fileloc dm)); cbn; [|reflexivity].
  destruct (DagBag_get_dag (host w) (fileloc dm) dag_id) as [d|]; cbn;
    [|reflexivity].
  destruct (has_task d (task_id (self w))); reflexivity.
Qed.

Lemma check_dag_world (dag_id : string) (w : World) :
  world (check_dag dag_id w) = w.
Proof.
  rewrite check_dag_eq.
  destruct (find _ (dag_models (session w))) as [dm|]; [|reflexivity].
  destruct (os_path_exists (host w) (fileloc dm)); [|reflexivity].
  destruct (DagBag_get_dag (host w) (fileloc dm) dag_id) as [d|];
    reflexivity.
Qed.

(** [check_dag] emits checks only, and never the call event. *)
Lemma check_dag_trace (dag_id : string) (w : World) :
  Forall (fun e => is_validation_event e = true /\ is_check_call e = false)
         (trace (check_dag dag_id w)).
Proof.
  rewrite check_dag_eq.
  destruct (find _ (dag_models (session w))) as [dm|];
    [|repeat constructor].
  destruct (os_path_exists (host w) (fileloc dm)); [|repeat constructor].
  destruct (DagBag_get_dag (host w) (fileloc dm) dag_id) as [d|];
    repeat constructor.
Qed.

Lemma for_each_check_dag_world (ids : list string) (w : World) :
  world (for_each ids check_dag w) = w.
Proof.
  induction ids as [|id ids IH]; [reflexivity|].
  cbn [for_each]. unfold bind.
  pose proof (check_dag_world id w) as Hw.
  destruct (check_dag id w) as [r w' t]. cbn in Hw. subst w'.
  destruct r; cbn; [exact IH|reflexivity].
Qed.

Lemma for_each_check_dag_trace (ids : list string) (w : World) :
  Forall (fun e => is_validation_event e = true /\ is_check_call e = false)
         (trace (for_each ids check_dag w)).
Proof.
  induction ids as [|id ids IH]; [constructor|].
  cbn [for_each]. unfold bind.
  pose proof (check_dag_world id w) as Hw.
  pose proof (check_dag_trace id w) as Ht.
  destruct (check_dag id w) as [r w' t]. cbn in Hw, Ht. subst w'.
  destruct r; cbn; [|exact Ht].
  apply Forall_app. split; assumption.
Qed.

(** The loop gets past the ids whose checks all pass. *)
Lemma for_each_check_dag_skip (before rest : list string) (w : World) :
  Forall (fun id => result (check_dag id w) = Returns tt) before ->
  result (for_each (before ++ rest) check_dag w)
  = result (for_each rest check_dag w).
Proof.
  induction 1 as [|id before Hid _ IH]; [reflexivity|].
  cbn [app for_each]. unfold bind.
  pose proof (check_dag_world id w) as Hw.
  destruct (check_dag id w) as [r w' t]. cbn in Hw, Hid. subst w' r.
  cbn. exact IH.
Qed.

(** The loop ends at the first id whose check raises. *)
Lemma for_each_check_dag_raises (id : string) (rest : list string)
    (w : World) (e : Exn) :
  result (check_dag id w) = Raises e ->
  result (for_each (id :: rest) check_dag w) = Raises e.
Proof.
  intros H. cbn [for_each]. unfold bind. rewrite H. reflexivity.
Qed.

Lemma check_for_existence_eq (w : World) :
  _check_for_existence w
  = let o := for_each (external_dag_ids (self w)) check_dag w in
    mkOutcome (result o) w (CallCheckForExistence :: trace o).
Proof.
  unfold _check_for_existence, bind, gets, emit. cbn.
  pose proof (for_each_check_dag_world (external_dag_ids (self w)) w) as Hw.
  destruct (for_each (external_dag_ids (self w)) check_dag w) as [r w' t].
  cbn in *. subst w'. destruct r; reflexivity.
Qed.

Lemma check_for_existence_world (w : World) :
  world (_check_for_existence w) = w.
Proof. rewrite check_for_existence_eq. reflexivity. Qed.

(** [poke], branch by branch. *)
Lemma poke_eq (w : World) :
  let s := self w in
  let n := length (count_query s (session w)) in
  let steady := [QueryCount; LogRunning n] in
  poke w =
  if _has_checked_params s then
    mkOutcome (Returns (Nat.eqb n 0)) w
              (LogPoking (external_dag_ids s) :: steady)
  else if allow_concurrent_runs s then
    mkOutcome (Returns true) w
              [LogPoking (external_dag_ids s); LogConcurrentRunsAllowed]
  else if check_existence s then
    let o := _check_for_existence w in
    match result o with
    | Returns _ =>
        mkOutcome (Returns (Nat.eqb n 0))
                  (mkWorld (checked s) (session w) (host w))
                  (LogPoking (external_dag_ids s) :: trace o ++ steady)
    | Raises e =>
        mkOutcome (Raises e) w (LogPoking (external_dag_ids s) :: trace o)
    end
  else
    mkOutcome (Returns (Nat.eqb n 0))
              (mkWorld (checked s) (session w) (host w))
              (LogPoking (external_dag_ids s) :: steady).
Proof.
  cbv zeta.
  unfold poke, bind, gets, emit. cbn -[_check_for_existence].
  destruct (_has_checked_params (self w)); [reflexivity|].
  cbn -[_check_for_existence].
  destruct (allow_concurrent_runs (self w)); [reflexivity|].
  cbn -[_check_for_existence].
  destruct (check_existence (self w)); [|reflexivity].
  pose proof (check_for_existence_world w) as Hw.
  destruct (_check_for_existence w) as [r w' t]. cbn in Hw. subst w'.
  destruct r; reflexivity.
Qed.

(** ** The count query *)

Lemma state_eqb_eq (a b : State) : state_eqb a b = true <-> a = b.
Proof.
  unfold state_eqb. destruct (State_eq_dec a b); split; congruence.
Qed.

(** The rows the query counts. *)
Lemma in_count_query (s : Sensor) (db : Session) (r : DagRun)
    (ti : TaskInstance) :
  In (r, ti) (count_query s db) <->
  In r (dag_runs db)
  /\ in_ (dr_dag_id r) (external_dag_ids s) = true
  /\ dr_state r = RUNNING
  /\ In ti (task_instances db)
  /\ ti_run_id ti = dr_run_id r
  /\ ti_task_id ti = task_id s
  /\ ti_state ti = SUCCESS.
Proof.
  unfold count_query, join.
  rewrite filter_In, in_flat_map. cbn [snd].
  rewrite andb_true_iff, String.eqb_eq, state_eqb_eq.
  split.
  - intros [[r' [Hr' Hin]] [Htid Hst]].
    apply in_map_iff in Hin. destruct Hin as [ti' [Heq Hti]].
    inversion Heq; subst r' ti'.
    apply filter_In in Hr'. destruct Hr' as [Hr Hc].
    apply andb_true_iff in Hc. destruct Hc as [Hin Hrun].
    apply state_eqb_eq in Hrun.
    apply filter_In in Hti. destruct Hti as [Hti Hon].
    apply String.eqb_eq in Hon.
    repeat split; assumption.
  - intros (Hr & Hin & Hrun & Hti & Hon & Htid & Hst).
    split; [|split; assumption].
    exists r. split.
    + apply filter_In. split; [assumption|].
      apply andb_true_iff. split; [assumption|].
      apply state_eqb_eq. assumption.
    + apply in_map. apply filter_In. split; [assumption|].
      apply String.eqb_eq. assumption.
Qed.

Lemma active_for_guard_true (s : Sensor) (db : Session) (r : DagRun) :
  active_for_guard s db r = true <->
  in_ (dr_dag_id r) (external_dag_ids s) = true
  /\ dr_state r = RUNNING
  /\ exists ti, In ti (task_instances db)
                /\ ti_run_id ti = dr_run_id r
                /\ ti_task_id ti = task_id s
                /\ ti_state ti = SUCCESS.
Proof.
  unfold active_for_guard.
  rewrite !andb_true_iff, state_eqb_eq, existsb_exists.
  split.
  - intros [[Hin Hrun] [ti [Hti Hc]]].
    rewrite !andb_true_iff, !String.eqb_eq, state_eqb_eq in Hc.
    destruct Hc as [[Hon Htid] Hst].
    repeat split; try assumption. exists ti. repeat split; assumption.
  - intros (Hin & Hrun & ti & Hti & Hon & Htid & Hst).
    repeat split; try assumption. exists ti. split; [assumption|].
    rewrite !andb_true_iff, !String.eqb_eq, state_eqb_eq.
    repeat split; assumption.
Qed.

Lemma length_zero_iff_no_element {A} (l : list A) :
  length l = 0 <-> forall x, ~ In x l.
Proof.
  destruct l as [|a l]; cbn; split; intros H; try reflexivity.
  - intros x [].
  - discriminate.
  - exfalso. apply (H a). left. reflexivity.
Qed.


(** With the first-poke block behind it or getting through, a sensor
    that does not allow concurrent runs returns whether the query found
    no row. *)
Lemma poke_returns_count (w : World) :
  allow_concurrent_runs (self w) = false ->
  first_poke_block_completes w ->
  result (poke w)
  = Returns (Nat.eqb (length (count_query (self w) (session w))) 0).
Proof.
  intros Hallow Hdone. rewrite poke_eq. cbv zeta. rewrite Hallow.
  destruct (_has_checked_params (self w)) eqn:Hflag; [reflexivity|].
  destruct (check_existence (self w)) eqn:Hcheck; [|reflexivity].
  destruct Hdone as [H | [H | H]]; try congruence.
  rewrite H. reflexivity.
Qed.

(** After [poke] the world is as before, or differs by the flag being
    set. *)
Lemma poke_world (w : World) :
  world (poke w) = w
  \/ world (poke w) = mkWorld (checked (self w)) (session w) (host w).
Proof.
  rewrite poke_eq. cbv zeta.
  destruct (_has_checked_params (self w)); [left; reflexivity|].
  destruct (allow_concurrent_runs (self w)); [left; reflexivity|].
  destruct (check_existence (self w)); [|right; reflexivity].
  destruct (result (_check_for_existence w)); [right|left]; reflexivity.
Qed.

Lemma poke_same_params (w : World) :
  same_params (self w) (self (world (poke w))).
Proof.
  destruct (poke_world w) as [H | H]; rewrite H; repeat split.
Qed.

(** ** Traces *)

Lemma filter_nothing {A} (f : A -> bool) (l : list A) :
  Forall (fun x => f x = false) l -> filter f l = [].
Proof.
  induction 1 as [|x l Hx _ IH]; [reflexivity|].
  cbn. rewrite Hx. exact IH.
Qed.

Lemma check_calls_app (t t' : list Event) :
  check_calls (t ++ t') = check_calls t + check_calls t'.
Proof. unfold check_calls. rewrite filter_app, length_app. reflexivity. Qed.

(** [_check_for_existence] is entered once and then only checks. *)
Lemma check_for_existence_trace (w : World) :
  exists t,
    trace (_check_for_existence w) = CallCheckForExistence :: t
    /\ Forall (fun e => is_validation_event e = true
                        /\ is_check_call e = false) t.
Proof.
  rewrite check_for_existence_eq. cbv zeta. cbn [trace].
  eexists. split; [reflexivity|]. apply for_each_check_dag_trace.
Qed.

Lemma check_for_existence_calls (w : World) :
  check_calls (trace (_check_for_existence w)) = 1.
Proof.
  destruct (check_for_existence_trace w) as [t [Ht Hall]]. rewrite Ht.
  unfold check_calls. cbn. f_equal.
  rewrite filter_nothing; [reflexivity|].
  eapply Forall_impl; [|exact Hall]. intros e [_ He]. exact He.
Qed.

Lemma check_for_existence_no_count (w : World) :
  ~ In QueryCount (trace (_check_for_existence w)).
Proof.
  destruct (check_for_existence_trace w) as [t [Ht Hall]]. rewrite Ht.
  intros [H | H]; [discriminate|].
  rewrite Forall_forall in Hall. destruct (Hall _ H) as [Hv _].
  discriminate.
Qed.

(** ** Repeated pokes *)

(** A sensor whose flag is set keeps it, and each of its pokes returns
    without a validation event. *)
Lemma pokes_checked (envs : list (Session * Host)) (s : Sensor) :
  _has_checked_params s = true ->
  snd (pokes s envs) = s
  /\ Forall (fun o => filter is_validation_event (snd o) = []
                      /\ exists b, fst o = Returns b)
            (fst (pokes s envs)).
Proof.
  intros Hflag. induction envs as [|[db h] envs [IHs IHo]].
  - split; [reflexivity|constructor].
  - cbn [pokes].
    pose proof (poke_eq (mkWorld s db h)) as Hp. cbv zeta in Hp.
    cbn [self session host] in Hp. rewrite Hflag in Hp. rewrite Hp.
    cbn [world self result trace fst snd]. split; [exact IHs|].
    constructor; [|exact IHo].
    cbn. split; [reflexivity|]. eexists. reflexivity.
Qed.

Lemma count_query_no_ids (s : Sensor) (db : Session) :
  external_dag_ids s = [] -> count_query s db = [].
Proof.
  intros Hids. destruct (count_query s db) as [|[r ti] rows] eqn:Hq;
    [reflexivity|].
  assert (Hrow : In (r, ti) (count_query s db))
    by (rewrite Hq; left; reflexivity).
  apply in_count_query in Hrow. destruct Hrow as (_ & Hin & _).
  rewrite Hids in Hin. discriminate.
Qed.

(** The first poke of a checking sensor raises what the first failing
    id raises, and leaves the world as it was. *)
Lemma poke_raises_at_first_failure (w : World) (before after : list string)
    (dag_id : string) (e : Exn) :
  _has_checked_params (self w) = false ->
  allow_concurrent_runs (self w) = false ->
  check_existence (self w) = true ->
  external_dag_ids (self w) = before ++ dag_id :: after ->
  Forall (fun id => result (check_dag id w) = Returns tt) before ->
  result (check_dag dag_id w) = Raises e ->
  poke w = mkOutcome (Raises e) w
                     (LogPoking (external_dag_ids (self w))
                      :: trace (_check_for_existence w)).
Proof.
  intros Hflag Hallow Hcheck Hids Hbefore Hraise.
  assert (Hres : result (_check_for_existence w) = Raises e).
  { rewrite check_for_existence_eq. cbv zeta. cbn [result].
    rewrite Hids, for_each_check_dag_skip by assumption.
    apply for_each_check_dag_raises. assumption. }
  rewrite poke_eq. cbv zeta. rewrite Hflag, Hallow, Hcheck, Hres.
  reflexivity.
Qed.

(** ** The sensor at work *)

(** DAG [A] is active, then its run ends: the sensor waits, then
    passes, and validates nothing on the way. *)
Example poke_waits_then_passes :
  fst (pokes (__init__ wait_task ["A"; "B"] false false)
             [(db_A_active, no_host);
              (mkSession [] [mkDagRun "A" "run_1" SUCCESS]
                         [mkTaskInstance wait_task "run_1" SUCCESS],
               no_host)])
  = [(Returns false,
      [LogPoking ["A"; "B"]; QueryCount; LogRunning 1]);
     (Returns true,
      [LogPoking ["A"; "B"]; QueryCount; LogRunning 0])].
Proof. reflexivity. Qed.

(** A registered DAG with the wait task passes validation; the checks
    show in the trace in the order of the source. *)
Example poke_validates_registered_dag :
  trace (poke (mkWorld (__init__ wait_task ["B"] true false)
                       db_B_registered host_B_with_wait_task))
  = [LogPoking ["B"]; CallCheckForExistence; QueryDagModelFirst "B";
     OsPathExists "/dags/b.py"; DagBagGetDag "/dags/b.py" "B";
     HasTask "B" wait_task; QueryCount; LogRunning 0].
Proof. reflexivity. Qed.

(** A registered DAG whose file is gone. *)
Example poke_reports_deleted_file :
  result (poke (mkWorld (__init__ wait_task ["A"; "B"] true false)
                        db_A_registered no_host))
  = Raises (AirflowException "The external DAG A was deleted.").
Proof. reflexivity. Qed.

(** A file that no longer defines the DAG: [has_task] is called on
    [None]. *)
Example poke_on_file_without_the_dag :
  result (poke (mkWorld (__init__ wait_task ["A"] true false)
                        db_A_registered
                        (mkHost (fun _ => true) (fun _ _ => None))))
  = Raises (AttributeError "'NoneType' object has no attribute 'has_task'").
Proof. reflexivity. Qed.

(** The join counts pairs: two succeeded task instances under one
    running run make two rows for one active run. *)
Example count_query_counts_pairs :
  let db := mkSession [] [mkDagRun "A" "run_1" RUNNING]
                      [mkTaskInstance wait_task "run_1" SUCCESS;
                       mkTaskInstance wait_task "run_1" SUCCESS] in
  length (count_query (__init__ wait_task ["A"] false false) db) = 2
  /\ count_active (__init__ wait_task ["A"] false false) db = 1.
Proof. split; reflexivity. Qed.

(** C2: a sensor with [allow_concurrent_runs = true] returns [True]
    from its first poke whatever the database and the host hold and
    whatever [check_existence] is; the poke only logs: its trace has no
    validation event (no call of [_check_for_existence], no query of a
    definition record, no path test, no DAG load, no task lookup) and no
    count query, and it leaves the world as it was. *)
Theorem poke_allow_concurrent_runs :
  forall w,
    allow_concurrent_runs (self w) = true ->
    _has_checked_params (self w) = false ->
    result (poke w) = Returns true
    /\ trace (poke w)
       = [LogPoking (external_dag_ids (self w)); LogConcurrentRunsAllowed]
    /\ filter is_validation_event (trace (poke w)) = []
    /\ world (poke w) = w.
Proof.
  intros w Hallow Hflag.
  rewrite poke_eq. cbv zeta. rewrite Hflag, Hallow.
  cbn [result trace world]. repeat split; reflexivity.
Qed.

Lemma poke_allow_concurrent_runs_witness :
  result (poke (mkWorld (__init__ wait_task ["A"] true true)
                        db_A_active no_host)) = Returns true
  /\ trace (poke (mkWorld (__init__ wait_task ["A"] true true)
                          db_A_active no_host))
     = [LogPoking ["A"]; LogConcurrentRunsAllowed]
  /\ filter is_validation_event
            (trace (poke (mkWorld (__init__ wait_task ["A"] true true)
                                  db_A_active no_host))) = []
  /\ world (poke (mkWorld (__init__ wait_task ["A"] true true)
                          db_A_active no_host))
     = mkWorld (__init__ wait_task ["A"] true true) db_A_active no_host.
Proof.
  apply (poke_allow_concurrent_runs
           (mkWorld (__init__ wait_task ["A"] true true)
                    db_A_active no_host)).
  - reflexivity.
  - reflexivity.
Defined.





(** C9: [poke] never writes to the database: whatever branch it takes,
    the tables of definitions, runs and task instances after the call
    are the ones before it; the host is untouched as well, and of the
    sensor object only the flag can differ. *)
Theorem poke_read_only :
  forall w,
    session (world (poke w)) = session w
    /\ host (world (poke w)) = host w
    /\ same_params (self w) (self (world (poke w))).
Proof.
  intros w. split; [|split].
  - destruct (poke_world w) as [H | H]; rewrite H; reflexivity.
  - destruct (poke_world w) as [H | H]; rewrite H; reflexivity.
  - apply poke_same_params.
Qed.

(** C8: a sensor with no external DAG ids that does not allow concurrent
    runs returns [True] from every poke of every sequence of pokes,
    whatever the database and the host hold at each poke, with or
    without [check_existence]. *)
Theorem poke_without_peers_always_true :
  forall envs s,
    external_dag_ids s = [] ->
    allow_concurrent_runs s = false ->
    length (fst (pokes s envs)) = length envs
    /\ Forall (fun o => fst o = Returns true) (fst (pokes s envs)).
Proof.
  induction envs as [|[db h] envs IH]; intros s Hids Hallow.
  - split; [reflexivity|constructor].
  - cbn [pokes fst snd length].
    destruct (poke_same_params (mkWorld s db h)) as (_ & Hids' & _ & Hallow').
    cbn [self] in Hids', Hallow'.
    rewrite Hids in Hids'. rewrite Hallow in Hallow'.
    destruct (IH _ Hids' Hallow') as [IHlen IHall].
    split; [rewrite IHlen; reflexivity|].
    constructor; [|exact IHall].
    cbn [fst]. rewrite poke_returns_count.
    + cbn [self session]. rewrite count_query_no_ids by assumption.
      reflexivity.
    + exact Hallow.
    + right. right. rewrite check_for_existence_eq. cbv zeta.
      cbn [self result]. rewrite Hids. reflexivity.
Qed.

Lemma poke_without_peers_always_true_witness :
  length (fst (pokes (__init__ wait_task [] true false)
                     [(db_A_active, no_host); (db_A_waiting, no_host)])) = 2
  /\ Forall (fun o => fst o = Returns true)
            (fst (pokes (__init__ wait_task [] true false)
                        [(db_A_active, no_host); (db_A_waiting, no_host)])).
Proof.
  apply (poke_without_peers_always_true
           [(db_A_active, no_host); (db_A_waiting, no_host)]
           (__init__ wait_task [] true false)).
  - reflexivity.
  - reflexivity.
Defined.

(** C4, as the code has it: the flag is a boolean, unset in a fresh
    sensor; a poke that finds it unset sets it exactly when the sensor
    does not allow concurrent runs and the validation raises nothing;
    once set it stays set through every sequence of pokes, so it is set
    at most once. *)
Theorem checked_flag_transitions :
  forall s envs w,
    (forall tid ids check allow,
        _has_checked_params (__init__ tid ids check allow) = false)
    /\ (_has_checked_params s = true ->
        _has_checked_params (snd (pokes s envs)) = true)
    /\ (_has_checked_params (self w) = false ->
        (_has_checked_params (self (world (poke w))) = true <->
         allow_concurrent_runs (self w) = false
         /\ (check_existence (self w) = false
             \/ result (_check_for_existence w) = Returns tt))).
Proof.
  intros s envs w. split; [reflexivity|]. split.
  - intros Hflag. rewrite (proj1 (pokes_checked envs s Hflag)). exact Hflag.
  - intros Hflag. rewrite poke_eq. cbv zeta. rewrite Hflag.
    destruct (allow_concurrent_runs (self w)).
    { cbn. rewrite Hflag. split; [discriminate|]. intros [H _]. discriminate. }
    destruct (check_existence (self w)).
    2: { cbn. split; [intros _; split; [reflexivity|left; reflexivity]
                     |reflexivity]. }
    destruct (result (_check_for_existence w)) as [[]|e]; cbn.
    + split; [intros _; split; [reflexivity|right; reflexivity]
             |reflexivity].
    + rewrite Hflag. split; [discriminate|].
      intros [_ [H | H]]; discriminate.
Qed.

Lemma checked_flag_transitions_witness :
  _has_checked_params
    (snd (pokes (checked (__init__ wait_task ["A"] true false))
                [(db_empty, no_host); (db_A_active, no_host)])) = true
  /\ (_has_checked_params
        (self (world (poke (mkWorld (__init__ wait_task ["A"] false false)
                                    db_A_active no_host)))) = true <->
      false = false
      /\ (false = false
          \/ result (_check_for_existence
                       (mkWorld (__init__ wait_task ["A"] false false)
                                db_A_active no_host)) = Returns tt)).
Proof.
  destruct (checked_flag_transitions
              (checked (__init__ wait_task ["A"] true false))
              [(db_empty, no_host); (db_A_active, no_host)]
              (mkWorld (__init__ wait_task ["A"] false false)
                       db_A_active no_host))
    as (_ & Hkeep & Hset).
  split.
  - apply Hkeep. reflexivity.
  - apply Hset. reflexivity.
Defined.

(** C4 as stated fails: the first poke of a sensor that allows
    concurrent runs returns before the flag is set. *)
Lemma first_poke_may_leave_flag_unset :
  ~ (forall s db h,
        _has_checked_params s = false ->
        _has_checked_params (self (world (poke (mkWorld s db h)))) = true).
Proof.
  intros H.
  specialize (H (__init__ wait_task ["A"] false true) db_empty no_host
                eq_refl).
  discriminate H.
Qed.

(** C5, as the code has it: for a fresh sensor with [check_existence]
    that does not allow concurrent runs and whose first validation
    raises nothing, a sequence of N pokes enters [_check_for_existence]
    exactly once, in the first poke, and the pokes 2 to N have no
    validation event at all. *)
Theorem validation_only_in_first_poke :
  forall s db h envs,
    _has_checked_params s = false ->
    allow_concurrent_runs s = false ->
    check_existence s = true ->
    result (_check_for_existence (mkWorld s db h)) = Returns tt ->
    exists first later,
      fst (pokes s ((db, h) :: envs)) = first :: later
      /\ length later = length envs
      /\ check_calls (snd first) = 1
      /\ Forall (fun o => filter is_validation_event (snd o) = []) later.
Proof.
  intros s db h envs Hflag Hallow Hcheck Hok.
  cbn [pokes fst snd].
  pose proof (poke_eq (mkWorld s db h)) as Hp. cbv zeta in Hp.
  cbn [self session host] in Hp.
  rewrite Hflag, Hallow, Hcheck, Hok in Hp. rewrite Hp.
  cbn [world self result trace].
  destruct (pokes_checked envs (checked s) eq_refl) as [_ Hlater].
  eexists. eexists. split; [reflexivity|]. split; [|split].
  - clear. revert s. induction envs as [|[db' h'] envs IH]; intros s;
      [reflexivity|].
    cbn [pokes fst length]. f_equal. apply IH.
  - cbn [snd].
    change (LogPoking (external_dag_ids s)
            :: trace (_check_for_existence (mkWorld s db h)) ++
               [QueryCount;
                LogRunning (length (count_query s db))])
      with ([LogPoking (external_dag_ids s)]
            ++ trace (_check_for_existence (mkWorld s db h)) ++
               [QueryCount;
                LogRunning (length (count_query s db))]).
    rewrite !check_calls_app, check_for_existence_calls. reflexivity.
  - eapply Forall_impl; [|exact Hlater]. intros o [Ho _]. exact Ho.
Qed.

Lemma validation_only_in_first_poke_witness :
  exists first later,
    fst (pokes (__init__ wait_task ["B"] true false)
               [(db_B_registered, host_B_with_wait_task);
                (db_B_registered, no_host)])
    = first :: later
    /\ length later = 1
    /\ check_calls (snd first) = 1
    /\ Forall (fun o => filter is_validation_event (snd o) = []) later.
Proof.
  apply (validation_only_in_first_poke
           (__init__ wait_task ["B"] true false)
           db_B_registered host_B_with_wait_task
           [(db_B_registered, no_host)]); reflexivity.
Defined.

(** C5 as stated fails: when the first validation raises, the flag stays
    unset and the second poke validates again. *)
Lemma failed_validation_is_repeated :
  ~ (forall s envs first later,
        _has_checked_params s = false ->
        allow_concurrent_runs s = false ->
        check_existence s = true ->
        fst (pokes s envs) = first :: later ->
        check_calls (snd first) = 1
        /\ Forall (fun o => filter is_validation_event (snd o) = []) later).
Proof.
  intros H.
  destruct (H (__init__ wait_task ["A"] true false)
              [(db_empty, no_host); (db_empty, no_host)]
              _ _ eq_refl eq_refl eq_refl eq_refl) as [_ Hlater].
  inversion Hlater as [|o later Ho _]; subst.
  discriminate Ho.
Qed.

(** C6, as the code has it: on the first poke of a sensor with
    [check_existence] that does not allow concurrent runs, if the ids
    before [dag_id] in the iteration pass their checks and [dag_id] has
    no definition record, the poke raises the failure that names
    [dag_id] as not existing; no count is queried and the world,
    flag included, is as before. *)
Theorem poke_raises_does_not_exist :
  forall w before dag_id after,
    _has_checked_params (self w) = false ->
    allow_concurrent_runs (self w) = false ->
    check_existence (self w) = true ->
    external_dag_ids (self w) = before ++ dag_id :: after ->
    Forall (fun id => result (check_dag id w) = Returns tt) before ->
    find (fun d => String.eqb (dm_dag_id d) dag_id)
         (dag_models (session w)) = None ->
    result (poke w)
    = Raises (AirflowException
                ("The external DAG " ++ dag_id ++ " does not exist."))
    /\ ~ In QueryCount (trace (poke w))
    /\ world (poke w) = w.
Proof.
  intros w before dag_id after Hflag Hallow Hcheck Hids Hbefore Hnone.
  rewrite (poke_raises_at_first_failure w before after dag_id
             (AirflowException
                ("The external DAG " ++ dag_id ++ " does not exist.")))
    by (try assumption; rewrite check_dag_eq, Hnone; reflexivity).
  cbn [result trace world]. repeat split.
  intros [H | H]; [discriminate|].
  exact (check_for_existence_no_count w H).
Qed.

Lemma poke_raises_does_not_exist_witness :
  result (poke (mkWorld (__init__ wait_task ["B"; "A"] true false)
                        db_B_registered host_B_with_wait_task))
  = Raises (AirflowException "The external DAG A does not exist.")
  /\ ~ In QueryCount
         (trace (poke (mkWorld (__init__ wait_task ["B"; "A"] true false)
                               db_B_registered host_B_with_wait_task)))
  /\ world (poke (mkWorld (__init__ wait_task ["B"; "A"] true false)
                          db_B_registered host_B_with_wait_task))
     = mkWorld (__init__ wait_task ["B"; "A"] true false)
               db_B_registered host_B_with_wait_task.
Proof.
  apply (poke_raises_does_not_exist
           (mkWorld (__init__ wait_task ["B"; "A"] true false)
                    db_B_registered host_B_with_wait_task)
           ["B"] "A" []).
  - reflexivity.
  - reflexivity.
  - reflexivity.
  - reflexivity.
  - repeat constructor.
  - reflexivity.
Defined.

(** C6 as stated fails twice over: a sensor that allows concurrent runs
    returns [True] without checking, and an id that fails another check
    earlier in the iteration is the one reported. *)
Lemma missing_record_not_always_reported :
  ~ (forall w dag_id,
        _has_checked_params (self w) = false ->
        check_existence (self w) = true ->
        In dag_id (external_dag_ids (self w)) ->
        find (fun d => String.eqb (dm_dag_id d) dag_id)
             (dag_models (session w)) = None ->
        result (poke w)
        = Raises (AirflowException
                    ("The external DAG " ++ dag_id ++ " does not exist.")))
  /\ ~ (forall w dag_id,
           _has_checked_params (self w) = false ->
           allow_concurrent_runs (self w) = false ->
           check_existence (self w) = true ->
           In dag_id (external_dag_ids (self w)) ->
           find (fun d => String.eqb (dm_dag_id d) dag_id)
                (dag_models (session w)) = None ->
           result (poke w)
           = Raises (AirflowException
                       ("The external DAG " ++ dag_id ++ " does not exist."))).
Proof.
  split; intros H.
  - specialize (H (mkWorld (__init__ wait_task ["A"] true true)
                           db_empty no_host)
                  "A" eq_refl eq_refl (or_introl eq_refl) eq_refl).
    discriminate H.
  - specialize (H (mkWorld (__init__ wait_task ["A"; "B"] true false)
                           db_A_registered no_host)
                  "B" eq_refl eq_refl eq_refl
                  (or_intror (or_introl eq_refl)) eq_refl).
    discriminate H.
Qed.

(** C7, as the code has it: on the first poke of a sensor with
    [check_existence] that does not allow concurrent runs, if the ids
    before [dag_id] in the iteration pass their checks, and [dag_id] has
    a definition record whose file exists and whose reloaded DAG is
    there but has no task with the sensor's task id, the poke raises the
    failure that names [dag_id] and the task id; the world, flag
    included, is as before. *)
Theorem poke_raises_missing_task :
  forall w before dag_id after dm d,
    _has_checked_params (self w) = false ->
    allow_concurrent_runs (self w) = false ->
    check_existence (self w) = true ->
    external_dag_ids (self w) = before ++ dag_id :: after ->
    Forall (fun id => result (check_dag id w) = Returns tt) before ->
    find (fun d => String.eqb (dm_dag_id d) dag_id)
         (dag_models (session w)) = Some dm ->
    os_path_exists (host w) (fileloc dm) = true ->
    DagBag_get_dag (host w) (fileloc dm) dag_id = Some d ->
    has_task d (task_id (self w)) = false ->
    result (poke w)
    = Raises (AirflowException
                ("The external DAG " ++ dag_id
                 ++ " does not have a task with id "
                 ++ task_id (self w) ++ "."))
    /\ ~ In QueryCount (trace (poke w))
    /\ world (poke w) = w.
Proof.
  intros w before dag_id after dm d Hflag Hallow Hcheck Hids Hbefore
         Hfind Hpath Hdag Htask.
  rewrite (poke_raises_at_first_failure w before after dag_id
             (AirflowException
                ("The external DAG " ++ dag_id
                 ++ " does not have a task with id "
                 ++ task_id (self w) ++ ".")))
    by (try assumption;
        rewrite check_dag_eq, Hfind, Hpath, Hdag, Htask; reflexivity).
  cbn [result trace world]. repeat split.
  intros [H | H]; [discriminate|].
  exact (check_for_existence_no_count w H).
Qed.

Lemma poke_raises_missing_task_witness :
  result (poke (mkWorld (__init__ wait_task ["B"] true false)
                        db_B_registered host_B_without_wait_task))
  = Raises (AirflowException
              ("The external DAG B does not have a task with id "
               ++ wait_task ++ "."))
  /\ ~ In QueryCount
         (trace (poke (mkWorld (__init__ wait_task ["B"] true false)
                               db_B_registered host_B_without_wait_task)))
  /\ world (poke (mkWorld (__init__ wait_task ["B"] true false)
                          db_B_registered host_B_without_wait_task))
     = mkWorld (__init__ wait_task ["B"] true false)
               db_B_registered host_B_without_wait_task.
Proof.
  apply (poke_raises_missing_task
           (mkWorld (__init__ wait_task ["B"] true false)
                    db_B_registered host_B_without_wait_task)
           [] "B" [] (mkDagModel "B" "/dags/b.py") (mkDAG ["load_data"])).
  - reflexivity.
  - reflexivity.
  - reflexivity.
  - reflexivity.
  - constructor.
  - reflexivity.
  - reflexivity.
  - reflexivity.
  - reflexivity.
Defined.

(** C7 as stated fails twice over: a sensor that allows concurrent runs
    returns [True] without checking, and an id without a definition
    record earlier in the iteration is the one reported. *)
Lemma missing_task_not_always_reported :
  ~ (forall w dag_id dm d,
        _has_checked_params (self w) = false ->
        check_existence (self w) = true ->
        In dag_id (external_dag_ids (self w)) ->
        find (fun d => String.eqb (dm_dag_id d) dag_id)
             (dag_models (session w)) = Some dm ->
        os_path_exists (host w) (fileloc dm) = true ->
        DagBag_get_dag (host w) (fileloc dm) dag_id = Some d ->
        has_task d (task_id (self w)) = false ->
        result (poke w)
        = Raises (AirflowException
                    ("The external DAG " ++ dag_id
                     ++ " does not have a task with id "
                     ++ task_id (self w) ++ ".")))
  /\ ~ (forall w dag_id dm d,
           _has_checked_params (self w) = false ->
           allow_concurrent_runs (self w) = false ->
           check_existence (self w) = true ->
           In dag_id (external_dag_ids (self w)) ->
           find (fun d => String.eqb (dm_dag_id d) dag_id)
                (dag_models (session w)) = Some dm ->
           os_path_exists (host w) (fileloc dm) = true ->
           DagBag_get_dag (host w) (fileloc dm) dag_id = Some d ->
           has_task d (task_id (self w)) = false ->
           result (poke w)
           = Raises (AirflowException
                       ("The external DAG " ++ dag_id
                        ++ " does not have a task with id "
                        ++ task_id (self w) ++ "."))).
Proof.
  split; intros H.
  - specialize (H (mkWorld (__init__ wait_task ["B"] true true)
                           db_B_registered host_B_without_wait_task)
                  "B" (mkDagModel "B" "/dags/b.py") (mkDAG ["load_data"])
                  eq_refl eq_refl (or_introl eq_refl)
                  eq_refl eq_refl eq_refl eq_refl).
    discriminate H.
  - specialize (H (mkWorld (__init__ wait_task ["A"; "B"] true false)
                           db_B_registered host_B_without_wait_task)
                  "B" (mkDagModel "B" "/dags/b.py") (mkDAG ["load_data"])
                  eq_refl eq_refl eq_refl (or_intror (or_introl eq_refl))
                  eq_refl eq_refl eq_refl eq_refl).
    discriminate H.
Qed.

(** C10: when a poke raises, the world is as before the poke, the flag
    is unset, and the next poke of the same object, whatever the
    database and the host then hold, runs [_check_for_existence] in
    full again right after its first log line. *)
Theorem poke_raise_keeps_flag_unset :
  forall w e,
    result (poke w) = Raises e ->
    world (poke w) = w
    /\ _has_checked_params (self (world (poke w))) = false
    /\ forall db h,
         let w' := mkWorld (self (world (poke w))) db h in
         exists rest,
           trace (poke w')
           = LogPoking (external_dag_ids (self w'))
             :: trace (_check_for_existence w') ++ rest.
Proof.
  intros w e Hraise.
  pose proof (poke_eq w) as Hp. cbv zeta in Hp.
  destruct (_has_checked_params (self w)) eqn:Hflag;
    [rewrite Hp in Hraise; discriminate|].
  destruct (allow_concurrent_runs (self w)) eqn:Hallow;
    [rewrite Hp in Hraise; discriminate|].
  destruct (check_existence (self w)) eqn:Hcheck;
    [|rewrite Hp in Hraise; discriminate].
  destruct (result (_check_for_existence w)) as [u|e'] eqn:Hres;
    [rewrite Hp in Hraise; discriminate|].
  rewrite Hp. cbn [world]. split; [reflexivity|]. split; [exact Hflag|].
  intros db h.
  pose proof (poke_eq (mkWorld (self w) db h)) as Hp'. cbv zeta in Hp'.
  cbn [self session host] in Hp'. rewrite Hflag, Hallow, Hcheck in Hp'.
  rewrite Hp'. cbn [self].
  destruct (result (_check_for_existence (mkWorld (self w) db h))).
  - eexists. reflexivity.
  - exists []. cbn [trace]. rewrite app_nil_r. reflexivity.
Qed.

Lemma poke_raise_keeps_flag_unset_witness :
  world (poke (mkWorld (__init__ wait_task ["A"] true false)
                       db_empty no_host))
  = mkWorld (__init__ wait_task ["A"] true false) db_empty no_host
  /\ _has_checked_params
       (self (world (poke (mkWorld (__init__ wait_task ["A"] true false)
                                   db_empty no_host)))) = false
  /\ forall db h,
       let w' :=
         mkWorld
           (self (world (poke (mkWorld (__init__ wait_task ["A"] true false)
                                       db_empty no_host))))
           db h in
       exists rest,
         trace (poke w')
         = LogPoking (external_dag_ids (self w'))
           :: trace (_check_for_existence w') ++ rest.
Proof.
  apply (poke_raise_keeps_flag_unset
           (mkWorld (__init__ wait_task ["A"] true false) db_empty no_host)
           (AirflowException "The external DAG A does not exist.")).
  reflexivity.
Defined.

(** * Further properties of the sensor *)

(** ** Validation *)

Lemma check_dag_returns_iff (dag_id : string) (w : World) :
  result (check_dag dag_id w) = Returns tt
  <-> dag_passes (self w) (session w) (host w) dag_id = true.
Proof.
  rewrite check_dag_eq. unfold dag_passes.
  destruct (find _ (dag_models (session w))) as [dm|];
    [|split; discriminate].
  destruct (os_path_exists (host w) (fileloc dm)); [|split; discriminate].
  destruct (DagBag_get_dag (host w) (fileloc dm) dag_id) as [d|];
    [|split; discriminate].
  cbn. destruct (has_task d (task_id (self w)));
    split; (reflexivity || discriminate).
Qed.

Lemma for_each_check_dag_returns_iff (ids : list string) (w : World) :
  result (for_each ids check_dag w) = Returns tt
  <-> forallb (dag_passes (self w) (session w) (host w)) ids = true.
Proof.
  induction ids as [|id ids IH]; [split; reflexivity|].
  cbn [for_each forallb]. unfold bind.
  rewrite andb_true_iff, <- check_dag_returns_iff, <- IH.
  pose proof (check_dag_world id w) as Hw.
  destruct (check_dag id w) as [r w' t]. cbn in Hw. subst w'.
  destruct r as [[]|e]; cbn.
  - split; [intros H; split; [reflexivity|exact H]|intros [_ H]; exact H].
  - split; [discriminate|intros [H _]; discriminate].
Qed.

(** The exception of the loop is the exception of one of its ids. *)
Lemma for_each_check_dag_raises_inv (ids : list string) (w : World)
    (e : Exn) :
  result (for_each ids check_dag w) = Raises e ->
  exists dag_id, In dag_id ids /\ result (check_dag dag_id w) = Raises e.
Proof.
  induction ids as [|id ids IH]; [discriminate|].
  cbn [for_each]. unfold bind.
  pose proof (check_dag_world id w) as Hw.
  destruct (check_dag id w) as [r w' t] eqn:Hc. cbn in Hw. subst w'.
  destruct r as [u|e']; cbn [result world trace].
  - intros H. destruct (IH H) as [dag_id [Hin Hr]].
    exists dag_id. split; [right; exact Hin|exact Hr].
  - intros H. exists id. split; [left; reflexivity|].
    rewrite Hc. exact H.
Qed.

(** An event of the loop is an event of the check of one of its ids. *)
Lemma for_each_check_dag_event (ids : list string) (w : World) (ev : Event) :
  In ev (trace (for_each ids check_dag w)) ->
  exists dag_id, In dag_id ids /\ In ev (trace (check_dag dag_id w)).
Proof.
  induction ids as [|id ids IH]; [intros []|].
  cbn [for_each]. unfold bind.
  pose proof (check_dag_world id w) as Hw.
  destruct (check_dag id w) as [r w' t] eqn:Hc. cbn in Hw. subst w'.
  destruct r as [u|e]; cbn [result world trace].
  - intros H. apply in_app_or in H. destruct H as [H | H].
    + exists id. split; [left; reflexivity|]. rewrite Hc. exact H.
    + destruct (IH H) as [dag_id [Hin Hev]].
      exists dag_id. split; [right; exact Hin|exact Hev].
  - intros H. exists id. split; [left; reflexivity|]. rewrite Hc. exact H.
Qed.

(** The trace of the loop up to and including the first failing id. *)
Lemma for_each_check_dag_trace_until (before after : list string)
    (dag_id : string) (w : World) (e : Exn) :
  Forall (fun id => result (check_dag id w) = Returns tt) before ->
  result (check_dag dag_id w) = Raises e ->
  trace (for_each (before ++ dag_id :: after) check_dag w)
  = flat_map (fun id => trace (check_dag id w)) (before ++ [dag_id]).
Proof.
  intros Hbefore Hraise.
  induction Hbefore as [|id before Hid _ IH].
  - cbn [app for_each flat_map]. unfold bind. rewrite Hraise.
    cbn [trace]. rewrite app_nil_r. reflexivity.
  - cbn [app for_each flat_map]. unfold bind.
    pose proof (check_dag_world id w) as Hw.
    destruct (check_dag id w) as [r w' t]. cbn in Hw, Hid. subst w' r.
    cbn [result world trace]. rewrite IH. reflexivity.
Qed.

(** An event of [poke] that is a validation event is an event of the
    check of one of the external DAG ids. *)
Lemma poke_validation_event (w : World) (ev : Event) :
  In ev (trace (poke w)) ->
  is_validation_event ev = true ->
  ev = CallCheckForExistence
  \/ exists dag_id,
       In dag_id (external_dag_ids (self w))
       /\ In ev (trace (check_dag dag_id w)).
Proof.
  intros Hin Hval.
  assert (Hcheck : In ev (trace (_check_for_existence w))).
  { rewrite poke_eq in Hin. cbv zeta in Hin.
    destruct (_has_checked_params (self w)).
    { cbn in Hin. destruct Hin as [H | [H | [H | []]]]; subst ev;
        discriminate. }
    destruct (allow_concurrent_runs (self w)).
    { cbn in Hin. destruct Hin as [H | [H | []]]; subst ev; discriminate. }
    destruct (check_existence (self w)).
    2: { cbn in Hin. destruct Hin as [H | [H | [H | []]]]; subst ev;
           discriminate. }
    destruct (result (_check_for_existence w)); cbn [trace] in Hin.
    - destruct Hin as [H | H]; [subst ev; discriminate|].
      apply in_app_or in H. destruct H as [H | H]; [exact H|].
      cbn in H. destruct H as [H | [H | []]]; subst ev; discriminate.
    - destruct Hin as [H | H]; [subst ev; discriminate|exact H]. }
  rewrite check_for_existence_eq in Hcheck. cbv zeta in Hcheck.
  cbn [trace] in Hcheck. destruct Hcheck as [H | H].
  - left. symmetry. exact H.
  - right. apply for_each_check_dag_event. exact H.
Qed.

(** X1: [_check_for_existence] returns exactly when every external DAG
    id has a definition record, the file of the record exists, and the
    DAG reloaded from it is there and has the sensor's task. *)
Theorem check_for_existence_returns_iff :
  forall w,
    result (_check_for_existence w) = Returns tt
    <-> forallb (dag_passes (self w) (session w) (host w))
                (external_dag_ids (self w)) = true.
Proof.
  intros w. rewrite check_for_existence_eq. cbv zeta. cbn [result].
  apply for_each_check_dag_returns_iff.
Qed.

(** X2: on the first poke of a checking sensor that does not allow
    concurrent runs, when the ids before [dag_id] pass and [dag_id] has
    a definition record whose file is gone, the poke raises the failure
    saying that [dag_id] was deleted; the DAG is not loaded, no count is
    queried, and the world is as before. *)
Theorem poke_raises_was_deleted :
  forall w before dag_id after dm,
    _has_checked_params (self w) = false ->
    allow_concurrent_runs (self w) = false ->
    check_existence (self w) = true ->
    external_dag_ids (self w) = before ++ dag_id :: after ->
    Forall (fun id => result (check_dag id w) = Returns tt) before ->
    find (fun d => String.eqb (dm_dag_id d) dag_id)
         (dag_models (session w)) = Some dm ->
    os_path_exists (host w) (fileloc dm) = false ->
    result (poke w)
    = Raises (AirflowException
                ("The external DAG " ++ dag_id ++ " was deleted."))
    /\ ~ In (DagBagGetDag (fileloc dm) dag_id) (trace (check_dag dag_id w))
    /\ ~ In QueryCount (trace (poke w))
    /\ world (poke w) = w.
Proof.
  intros w before dag_id after dm Hflag Hallow Hcheck Hids Hbefore
         Hfind Hpath.
  rewrite (poke_raises_at_first_failure w before after dag_id
             (AirflowException
                ("The external DAG " ++ dag_id ++ " was deleted.")))
    by (try assumption; rewrite check_dag_eq, Hfind, Hpath; reflexivity).
  cbn [result trace world]. split; [reflexivity|]. split; [|split].
  - rewrite check_dag_eq, Hfind, Hpath. cbn [trace].
    intros [H | [H | []]]; discriminate.
  - intros [H | H]; [discriminate|].
    exact (check_for_existence_no_count w H).
  - reflexivity.
Qed.

Lemma poke_raises_was_deleted_witness :
  result (poke (mkWorld (__init__ wait_task ["A"; "B"] true false)
                        db_A_registered no_host))
  = Raises (AirflowException "The external DAG A was deleted.")
  /\ ~ In (DagBagGetDag "/dags/a.py" "A")
         (trace (check_dag "A"
                   (mkWorld (__init__ wait_task ["A"; "B"] true false)
                            db_A_registered no_host)))
  /\ ~ In QueryCount
         (trace (poke (mkWorld (__init__ wait_task ["A"; "B"] true false)
                               db_A_registered no_host)))
  /\ world (poke (mkWorld (__init__ wait_task ["A"; "B"] true false)
                          db_A_registered no_host))
     = mkWorld (__init__ wait_task ["A"; "B"] true false)
               db_A_registered no_host.
Proof.
  apply (poke_raises_was_deleted
           (mkWorld (__init__ wait_task ["A"; "B"] true false)
                    db_A_registered no_host)
           [] "A" ["B"] (mkDagModel "A" "/dags/a.py")).
  - reflexivity.
  - reflexivity.
  - reflexivity.
  - reflexivity.
  - constructor.
  - reflexivity.
  - reflexivity.
Defined.

(** X3: on the first poke of a checking sensor that does not allow
    concurrent runs, when the ids before [dag_id] pass and the file of
    [dag_id] exists but no longer defines the DAG, [has_task] is called
    on [None]: the poke raises an [AttributeError], not an
    [AirflowException], and the world is as before. *)
Theorem poke_raises_attribute_error :
  forall w before dag_id after dm,
    _has_checked_params (self w) = false ->
    allow_concurrent_runs (self w) = false ->
    check_existence (self w) = true ->
    external_dag_ids (self w) = before ++ dag_id :: after ->
    Forall (fun id => result (check_dag id w) = Returns tt) before ->
    find (fun d => String.eqb (dm_dag_id d) dag_id)
         (dag_models (session w)) = Some dm ->
    os_path_exists (host w) (fileloc dm) = true ->
    DagBag_get_dag (host w) (fileloc dm) dag_id = None ->
    result (poke w)
    = Raises (AttributeError "'NoneType' object has no attribute 'has_task'")
    /\ (forall msg, result (poke w) <> Raises (AirflowException msg))
    /\ world (poke w) = w.
Proof.
  intros w before dag_id after dm Hflag Hallow Hcheck Hids Hbefore
         Hfind Hpath Hdag.
  rewrite (poke_raises_at_first_failure w before after dag_id
             (AttributeError
                "'NoneType' object has no attribute 'has_task'"))
    by (try assumption; rewrite check_dag_eq, Hfind, Hpath, Hdag;
        reflexivity).
  cbn [result world]. split; [reflexivity|]. split; [|reflexivity].
  intros msg. discriminate.
Qed.

Lemma poke_raises_attribute_error_witness :
  result (poke (mkWorld (__init__ wait_task ["B"] true false)
                        db_B_registered
                        (mkHost (fun _ => true) (fun _ _ => None))))
  = Raises (AttributeError "'NoneType' object has no attribute 'has_task'")
  /\ (forall msg,
        result (poke (mkWorld (__init__ wait_task ["B"] true false)
                              db_B_registered
                              (mkHost (fun _ => true) (fun _ _ => None))))
        <> Raises (AirflowException msg))
  /\ world (poke (mkWorld (__init__ wait_task ["B"] true false)
                          db_B_registered
                          (mkHost (fun _ => true) (fun _ _ => None))))
     = mkWorld (__init__ wait_task ["B"] true false) db_B_registered
               (mkHost (fun _ => true) (fun _ _ => None)).
Proof.
  apply (poke_raises_attribute_error
           (mkWorld (__init__ wait_task ["B"] true false) db_B_registered
                    (mkHost (fun _ => true) (fun _ _ => None)))
           [] "B" [] (mkDagModel "B" "/dags/b.py")).
  - reflexivity.
  - reflexivity.
  - reflexivity.
  - reflexivity.
  - constructor.
  - reflexivity.
  - reflexivity.
  - reflexivity.
Defined.

Lemma check_for_existence_returns_iff_witness :
  result (_check_for_existence
            (mkWorld (__init__ wait_task ["B"] true false)
                     db_B_registered host_B_with_wait_task))
  = Returns tt.
Proof.
  apply (proj2 (check_for_existence_returns_iff
                  (mkWorld (__init__ wait_task ["B"] true false)
                           db_B_registered host_B_with_wait_task))).
  reflexivity.
Defined.

(** X4: [poke] raises only out of the validation of a first poke: when
    the flag is set, or concurrent runs are allowed, or
    [check_existence] is off, it returns, whatever the database and the
    host hold. *)
Theorem poke_returns_without_validation :
  forall w,
    _has_checked_params (self w) = true
    \/ allow_concurrent_runs (self w) = true
    \/ check_existence (self w) = false ->
    exists b, result (poke w) = Returns b
              /\ filter is_validation_event (trace (poke w)) = [].
Proof.
  intros w H. rewrite poke_eq. cbv zeta.
  destruct (_has_checked_params (self w)) eqn:Hflag.
  { eexists. split; reflexivity. }
  destruct (allow_concurrent_runs (self w)) eqn:Hallow.
  { eexists. split; reflexivity. }
  destruct (check_existence (self w)) eqn:Hcheck.
  { destruct H as [H | [H | H]]; discriminate. }
  eexists. split; reflexivity.
Qed.

Lemma poke_returns_without_validation_witness :
  exists b,
    result (poke (mkWorld (__init__ wait_task ["A"] false false)
                          db_A_active no_host)) = Returns b
    /\ filter is_validation_event
              (trace (poke (mkWorld (__init__ wait_task ["A"] false false)
                                    db_A_active no_host))) = [].
Proof.
  apply (poke_returns_without_validation
           (mkWorld (__init__ wait_task ["A"] false false)
                    db_A_active no_host)).
  right. right. reflexivity.
Defined.

(** X5: every exception out of [poke] is one of the four failures of the
    check of some id of [external_dag_ids], raised on an unset flag by a
    checking sensor that does not allow concurrent runs; the message
    names that id. *)
Theorem poke_raises_inv :
  forall w e,
    result (poke w) = Raises e ->
    _has_checked_params (self w) = false
    /\ allow_concurrent_runs (self w) = false
    /\ check_existence (self w) = true
    /\ exists dag_id,
         In dag_id (external_dag_ids (self w))
         /\ dag_passes (self w) (session w) (host w) dag_id = false
         /\ failure_of (task_id (self w)) dag_id e.
Proof.
  intros w e Hraise.
  rewrite poke_eq in Hraise. cbv zeta in Hraise.
  destruct (_has_checked_params (self w)); [discriminate|].
  destruct (allow_concurrent_runs (self w)); [discriminate|].
  destruct (check_existence (self w)); [|discriminate].
  destruct (result (_check_for_existence w)) as [u|e'] eqn:Hres;
    [discriminate|].
  cbn [result] in Hraise. injection Hraise as ->.
  repeat split.
  rewrite check_for_existence_eq in Hres. cbv zeta in Hres.
  cbn [result] in Hres.
  destruct (for_each_check_dag_raises_inv _ _ _ Hres) as [dag_id [Hin Hr]].
  exists dag_id. split; [exact Hin|]. split.
  - apply not_true_is_false. intros Hpass.
    apply check_dag_returns_iff in Hpass. congruence.
  - rewrite check_dag_eq in Hr. unfold failure_of.
    destruct (find _ (dag_models (session w))) as [dm|].
    2: { cbn in Hr. injection Hr as <-. left. reflexivity. }
    destruct (os_path_exists (host w) (fileloc dm)).
    2: { cbn in Hr. injection Hr as <-. right. left. reflexivity. }
    destruct (DagBag_get_dag (host w) (fileloc dm) dag_id) as [d|].
    2: { cbn in Hr. injection Hr as <-. right. right. left. reflexivity. }
    cbn [result] in Hr. destruct (has_task d (task_id (self w)));
      [discriminate|].
    injection Hr as <-. right. right. right. reflexivity.
Qed.

Lemma poke_raises_inv_witness :
  _has_checked_params (__init__ wait_task ["A"] true false) = false
  /\ allow_concurrent_runs (__init__ wait_task ["A"] true false) = false
  /\ check_existence (__init__ wait_task ["A"] true false) = true
  /\ exists dag_id,
       In dag_id ["A"]
       /\ dag_passes (__init__ wait_task ["A"] true false) db_empty no_host
                     dag_id = false
       /\ failure_of wait_task dag_id
                     (AirflowException "The external DAG A does not exist.").
Proof.
  apply (poke_raises_inv
           (mkWorld (__init__ wait_task ["A"] true false) db_empty no_host)
           (AirflowException "The external DAG A does not exist.")).
  reflexivity.
Defined.

(** X6: validation stops at the first failing id: on the first poke of
    a checking sensor that does not allow concurrent runs, when the ids
    before [dag_id] pass and [dag_id] fails, the trace is the log line,
    the call, and the checks of the ids up to [dag_id] in order; the ids
    after it are not looked up. *)
Theorem poke_stops_at_first_failure :
  forall w before dag_id after e,
    _has_checked_params (self w) = false ->
    allow_concurrent_runs (self w) = false ->
    check_existence (self w) = true ->
    external_dag_ids (self w) = before ++ dag_id :: after ->
    Forall (fun id => result (check_dag id w) = Returns tt) before ->
    result (check_dag dag_id w) = Raises e ->
    trace (poke w)
    = LogPoking (external_dag_ids (self w))
      :: CallCheckForExistence
      :: flat_map (fun id => trace (check_dag id w)) (before ++ [dag_id]).
Proof.
  intros w before dag_id after e Hflag Hallow Hcheck Hids Hbefore Hraise.
  rewrite (poke_raises_at_first_failure w before after dag_id e)
    by assumption.
  cbn [trace]. rewrite check_for_existence_eq. cbv zeta. cbn [trace].
  rewrite Hids at 2.
  rewrite (for_each_check_dag_trace_until before after dag_id w e)
    by assumption.
  reflexivity.
Qed.

Lemma poke_stops_at_first_failure_witness :
  trace (poke (mkWorld (__init__ wait_task ["B"; "A"; "C"] true false)
                       db_B_registered host_B_with_wait_task))
  = LogPoking ["B"; "A"; "C"]
    :: CallCheckForExistence
    :: flat_map
         (fun id =>
            trace (check_dag id
                     (mkWorld (__init__ wait_task ["B"; "A"; "C"] true false)
                              db_B_registered host_B_with_wait_task)))
         (["B"] ++ ["A"]).
Proof.
  apply (poke_stops_at_first_failure
           (mkWorld (__init__ wait_task ["B"; "A"; "C"] true false)
                    db_B_registered host_B_with_wait_task)
           ["B"] "A" ["C"]
           (AirflowException "The external DAG A does not exist.")).
  - reflexivity.
  - reflexivity.
  - reflexivity.
  - reflexivity.
  - repeat constructor.
  - reflexivity.
Defined.

(** X7: [poke] loads a DAG only from the file of the first definition
    record of one of the external DAG ids, and only when that file
    exists. *)
Theorem poke_loads_existing_files_only :
  forall w path dag_id,
    In (DagBagGetDag path dag_id) (trace (poke w)) ->
    In dag_id (external_dag_ids (self w))
    /\ os_path_exists (host w) path = true
    /\ exists dm,
         find (fun d => String.eqb (dm_dag_id d) dag_id)
              (dag_models (session w)) = Some dm
         /\ fileloc dm = path.
Proof.
  intros w path dag_id Hin.
  destruct (poke_validation_event w _ Hin eq_refl) as [H | [id [Hid Hev]]];
    [discriminate|].
  rewrite check_dag_eq in Hev.
  destruct (find _ (dag_models (session w))) as [dm|] eqn:Hfind.
  2: { cbn in Hev. destruct Hev as [H | []]; discriminate. }
  destruct (os_path_exists (host w) (fileloc dm)) eqn:Hpath.
  2: { cbn in Hev. destruct Hev as [H | [H | []]]; discriminate. }
  assert (Hload : DagBagGetDag (fileloc dm) id = DagBagGetDag path dag_id).
  { destruct (DagBag_get_dag (host w) (fileloc dm) id); cbn in Hev.
    - destruct Hev as [H | [H | [H | [H | []]]]];
        try discriminate; exact H.
    - destruct Hev as [H | [H | [H | []]]]; try discriminate; exact H. }
  injection Hload as Hp Hd. subst id path.
  split; [exact Hid|]. split; [exact Hpath|].
  exists dm. split; [exact Hfind|reflexivity].
Qed.

Lemma poke_loads_existing_files_only_witness :
  In "B" ["B"]
  /\ os_path_exists host_B_with_wait_task "/dags/b.py" = true
  /\ exists dm,
       find (fun d => String.eqb (dm_dag_id d) "B")
            (dag_models db_B_registered) = Some dm
       /\ fileloc dm = "/dags/b.py".
Proof.
  apply (poke_loads_existing_files_only
           (mkWorld (__init__ wait_task ["B"] true false)
                    db_B_registered host_B_with_wait_task)
           "/dags/b.py" "B").
  cbn. right. right. right. right. left. reflexivity.
Defined.

(** ** The count *)

Lemma in_In (v : string) (values : list string) :
  in_ v values = true <-> In v values.
Proof.
  unfold in_. rewrite existsb_exists. split.
  - intros [x [Hx He]]. apply String.eqb_eq in He. subst x. exact Hx.
  - intros H. exists v. split; [exact H|apply String.eqb_refl].
Qed.


(** X8: a sensor that allows concurrent runs returns [True] from every
    poke of every sequence of pokes, with the same two log lines and
    nothing else; its flag is never set, so the object after the pokes
    is the object before them. *)
Theorem pokes_allow_concurrent_runs :
  forall envs s,
    allow_concurrent_runs s = true ->
    _has_checked_params s = false ->
    snd (pokes s envs) = s
    /\ length (fst (pokes s envs)) = length envs
    /\ Forall (fun o => o = (Returns true,
                             [LogPoking (external_dag_ids s);
                              LogConcurrentRunsAllowed]))
              (fst (pokes s envs)).
Proof.
  intros envs s Hallow Hflag.
  induction envs as [|[db h] envs (IHs & IHlen & IHall)].
  - repeat split. constructor.
  - cbn [pokes].
    pose proof (poke_eq (mkWorld s db h)) as Hp. cbv zeta in Hp.
    cbn [self session host] in Hp. rewrite Hflag, Hallow in Hp.
    rewrite Hp. cbn [world self result trace fst snd length].
    split; [exact IHs|]. split; [rewrite IHlen; reflexivity|].
    constructor; [reflexivity|exact IHall].
Qed.

Lemma pokes_allow_concurrent_runs_witness :
  snd (pokes (__init__ wait_task ["A"] true true)
             [(db_A_active, no_host); (db_empty, no_host)])
  = __init__ wait_task ["A"] true true
  /\ length (fst (pokes (__init__ wait_task ["A"] true true)
                        [(db_A_active, no_host); (db_empty, no_host)])) = 2
  /\ Forall (fun o => o = (Returns true,
                           [LogPoking ["A"]; LogConcurrentRunsAllowed]))
            (fst (pokes (__init__ wait_task ["A"] true true)
                        [(db_A_active, no_host); (db_empty, no_host)])).
Proof.
  apply (pokes_allow_concurrent_runs
           [(db_A_active, no_host); (db_empty, no_host)]
           (__init__ wait_task ["A"] true true)).
  - reflexivity.
  - reflexivity.
Defined.

(** X9: the number [get_count] returns is at least the number of runs
    that are active for the guard: the join yields one row per succeeded
    task instance of the sensor's task under an active run, so the
    number logged can exceed the number of running DAGs and is never
    below it. *)
Theorem get_count_at_least_active_runs :
  forall w,
    exists n,
      result (get_count w) = Returns n
      /\ count_active (self w) (session w) <= n.
Proof.
  intros w. rewrite get_count_eq. eexists. split; [reflexivity|].
  generalize (self w) as s, (session w) as db. clear w. intros s db.
  unfold count_active, count_query, join.
  generalize (dag_runs db) as runs.
  induction runs as [|r runs IH]; [cbn; lia|].
  cbn [filter].
  destruct (in_ (dr_dag_id r) (external_dag_ids s)
            && state_eqb (dr_state r) RUNNING) eqn:Hpeer.
  - cbn [flat_map]. rewrite filter_app, length_app.
    destruct (active_for_guard s db r) eqn:Hact; [|lia].
    cbn [length].
    apply active_for_guard_true in Hact.
    destruct Hact as (_ & _ & ti & Hti & Hon & Htid & Hst).
    assert (Hrow :
      In (r, ti)
         (filter (fun p => String.eqb (ti_task_id (snd p)) (task_id s)
                           && state_eqb (ti_state (snd p)) SUCCESS)
                 (map (pair r)
                      (filter (fun ti => String.eqb (ti_run_id ti)
                                                    (dr_run_id r))
                              (task_instances db))))).
    { apply filter_In. split.
      - apply in_map. apply filter_In. split; [exact Hti|].
        apply String.eqb_eq. exact Hon.
      - cbn [snd]. apply andb_true_iff. split.
        + apply String.eqb_eq. exact Htid.
        + apply state_eqb_eq. exact Hst. }
    destruct (filter _ (map (pair r) _)) as [|row rows];
      [destruct Hrow|]. cbn [length]. lia.
  - assert (Hact : active_for_guard s db r = false).
    { unfold active_for_guard. rewrite Hpeer. reflexivity. }
    rewrite Hact. exact IH.
Qed.

(** X10: the count depends on [external_dag_ids] as a set: two sensors
    with the same task id whose id lists have the same members, in any
    order and with any repetitions, count the same rows. *)
Theorem count_query_ids_as_set :
  forall s s' db,
    task_id s' = task_id s ->
    (forall id, In id (external_dag_ids s) <-> In id (external_dag_ids s')) ->
    count_query s' db = count_query s db.
Proof.
  intros s s' db Htid Hids. unfold count_query. rewrite Htid.
  f_equal. f_equal. apply filter_ext. intros r. f_equal.
  apply eq_iff_eq_true. rewrite !in_In. symmetry. apply Hids.
Qed.

Lemma count_query_ids_as_set_witness :
  count_query (__init__ wait_task ["B"; "A"; "B"] false false) db_A_active
  = count_query (__init__ wait_task ["A"; "B"] true false) db_A_active.
Proof.
  apply (count_query_ids_as_set
           (__init__ wait_task ["A"; "B"] true false)
           (__init__ wait_task ["B"; "A"; "B"] false false)
           db_A_active).
  - reflexivity.
  - intros id. cbn. tauto.
Defined.

(** X11: when no run of the external DAGs is running, a sensor that
    does not allow concurrent runs and whose first-poke block completes
    returns [True], whatever task instances the database holds. *)
Theorem poke_true_without_running_run :
  forall w,
    allow_concurrent_runs (self w) = false ->
    first_poke_block_completes w ->
    (forall r, In r (dag_runs (session w)) ->
               in_ (dr_dag_id r) (external_dag_ids (self w)) = true ->
               dr_state r <> RUNNING) ->
    result (poke w) = Returns true.
Proof.
  intros w Hallow Hdone Hnone.
  rewrite poke_returns_count by assumption.
  replace (length (count_query (self w) (session w))) with 0;
    [reflexivity|].
  symmetry. apply length_zero_iff_no_element. intros [r ti] Hrow.
  apply in_count_query in Hrow. destruct Hrow as (Hr & Hin & Hrun & _).
  exact (Hnone r Hr Hin Hrun).
Qed.

Lemma poke_true_without_running_run_witness :
  result (poke (mkWorld (__init__ wait_task ["A"] false false)
                        (mkSession [] [mkDagRun "A" "run_1" SUCCESS]
                                   [mkTaskInstance wait_task "run_1" SUCCESS])
                        no_host))
  = Returns true.
Proof.
  apply (poke_true_without_running_run
           (mkWorld (__init__ wait_task ["A"] false false)
                    (mkSession [] [mkDagRun "A" "run_1" SUCCESS]
                               [mkTaskInstance wait_task "run_1" SUCCESS])
                    no_host)).
  - reflexivity.
  - right. left. reflexivity.
  - intros r [Hr | []] _. subst r. discriminate.
Defined.

(** X12: when some run of the external DAGs is running and a task
    instance of the same run id is the sensor's task and has succeeded,
    a sensor that does not allow concurrent runs and whose first-poke
    block completes returns [False]. *)
Theorem poke_false_with_active_run :
  forall w r ti,
    allow_concurrent_runs (self w) = false ->
    first_poke_block_completes w ->
    In r (dag_runs (session w)) ->
    in_ (dr_dag_id r) (external_dag_ids (self w)) = true ->
    dr_state r = RUNNING ->
    In ti (task_instances (session w)) ->
    ti_run_id ti = dr_run_id r ->
    ti_task_id ti = task_id (self w) ->
    ti_state ti = SUCCESS ->
    result (poke w) = Returns false.
Proof.
  intros w r ti Hallow Hdone Hr Hin Hrun Hti Hon Htid Hst.
  rewrite poke_returns_count by assumption.
  assert (Hrow : In (r, ti) (count_query (self w) (session w)))
    by (apply in_count_query; repeat split; assumption).
  destruct (count_query (self w) (session w)); [destruct Hrow|reflexivity].
Qed.

Lemma poke_false_with_active_run_witness :
  result (poke (mkWorld (__init__ wait_task ["A"; "B"] false false)
                        db_A_active no_host))
  = Returns false.
Proof.
  apply (poke_false_with_active_run
           (mkWorld (__init__ wait_task ["A"; "B"] false false)
                    db_A_active no_host)
           (mkDagRun "A" "run_1" RUNNING)
           (mkTaskInstance wait_task "run_1" SUCCESS)).
  - reflexivity.
  - right. left. reflexivity.
  - left. reflexivity.
  - reflexivity.
  - reflexivity.
  - left. reflexivity.
  - reflexivity.
  - reflexivity.
  - reflexivity.
Defined.


